(** * spinoff: the Node coordinator and the process helper

    A shallow embedding of [spinoff/actor/node.py] and
    [unnamedframework/util/process.py].  Both files are Python 2 modules
    (they import [cPickle] and [cStringIO]), so the Python 2 rules are
    the ones embedded here: in particular an [except] clause whose
    filter expression evaluates to [None] matches no exception and lets
    the pending one propagate unchanged.

    Layout: Python values, exceptions and a trace-and-error monad come
    first, then the two source modules, then the properties. *)

From Stdlib Require Import String Ascii List Bool ZArith Lia.
Import ListNotations.
Local Open Scope string_scope.
Local Open Scope list_scope.

(* ------------------------------------------------------------------ *)
(** ** Addresses and handles *)

Definition NodeId := string.

(** Python object identity, for the objects that are only passed around
    (the owning Node of a remote Ref, cells, guardians, hubs). *)
Definition ObjId := nat.

(** Modelled from the spec: [Uri] (spinoff/actor/uri.py is not among the
    sources).  The three attributes are the ones node.py reads:
    [uri.node], [uri.path] and [uri.root]; [root] stands for the truth
    value of [uri.root], the only way node.py uses it. *)
Record Uri := mkUri {
  node : option NodeId;
  path : string;
  root : bool
}.

Definition Cell := ObjId.

(** Modelled from the spec: [Ref] (spinoff/actor/ref.py is not among the
    sources), with the keyword arguments node.py passes to its
    constructor: [Ref(cell=, uri=, is_local=, node=)].  [ref_node] holds
    the identity of the owning Node object. *)
Record Ref := mkRef {
  cell : option Cell;
  uri : Uri;
  is_local : bool;
  ref_node : option ObjId
}.

(* ------------------------------------------------------------------ *)
(** ** Python values, exceptions, results *)

#[warnings="-register-all"]
Inductive PyVal :=
| VNone
| VInt (z : Z)
| VStr (s : string)
| VTuple (items : list PyVal)
| VList (items : list PyVal)
| VRef (r : Ref).

(** Exception classes.  The named ones are those the two modules raise
    or catch; any other class is referred to by its name. *)
Inductive ExcClass :=
| LookupFailed
| TypeError
| AttributeError
| AssertionError
| PicklingError
| ProcessFailed
| OtherExc (name : string).

Record Exc := mkExc {
  exc_class : ExcClass;
  exc_args : list PyVal
}.

Definition ExcClass_eqb (a b : ExcClass) : bool :=
  match a, b with
  | LookupFailed, LookupFailed => true
  | TypeError, TypeError => true
  | AttributeError, AttributeError => true
  | AssertionError, AssertionError => true
  | PicklingError, PicklingError => true
  | ProcessFailed, ProcessFailed => true
  | OtherExc n, OtherExc m => String.eqb n m
  | _, _ => false
  end.

Inductive Result (A : Type) :=
| Ok (a : A)
| Raise (e : Exc).
Arguments Ok {A} a.
Arguments Raise {A} e.

(** The proper ancestors of the classes whose declaration is known: the
    builtins, [cPickle.PicklingError], and [ProcessFailed], declared in
    process.py with the base [Exception].  [None] for the classes
    declared elsewhere. *)
Definition known_ancestors (c : ExcClass) : option (list ExcClass) :=
  match c with
  | TypeError | AttributeError | AssertionError =>
      Some [OtherExc "StandardError"; OtherExc "Exception"; OtherExc "BaseException"]
  | PicklingError =>
      Some [OtherExc "PickleError"; OtherExc "Exception"; OtherExc "BaseException"]
  | ProcessFailed =>
      Some [OtherExc "Exception"; OtherExc "BaseException"]
  | LookupFailed | OtherExc _ => None
  end.

(** The proper ancestors of every other class, as their declarations
    outside the two modules give them. *)
Class ExcHierarchy := {
  declared_ancestors : ExcClass -> list ExcClass
}.

Definition ancestors `{ExcHierarchy} (c : ExcClass) : list ExcClass :=
  match known_ancestors c with
  | Some l => l
  | None => declared_ancestors c
  end.

(** [issubclass(c, d)]: the class itself or one of its ancestors. *)
Definition is_subclass `{ExcHierarchy} (c d : ExcClass) : bool :=
  ExcClass_eqb c d || existsb (ExcClass_eqb d) (ancestors c).

(** [except <filter>:] in Python 2.  The filter expression is evaluated
    when an exception is pending; a class matches the instances of itself
    and of its subclasses, and [None] (here: no class) matches nothing. *)
Definition exc_matches `{ExcHierarchy} (e : Exc) (filter : option ExcClass) : bool :=
  match filter with
  | Some c => is_subclass (exc_class e) c
  | None => false
  end.

(** [try: body  except filter: handler] on results. *)
Definition try_except `{ExcHierarchy} {A} (body : Result A) (filter : option ExcClass)
    (handler : Result A) : Result A :=
  match body with
  | Ok a => Ok a
  | Raise e => if exc_matches e filter then handler else Raise e
  end.

(** Truth value of an attribute holding [None] or a [str]. *)
Definition truthy (o : option string) : bool :=
  match o with
  | None => false
  | Some s => negb (String.eqb s "")
  end.

(** [a == b] for two such attributes. *)
Definition opt_str_eqb (a b : option string) : bool :=
  match a, b with
  | None, None => true
  | Some s, Some t => String.eqb s t
  | _, _ => false
  end.

(** Whether the character [c] occurs in [s]. *)
Fixpoint occurs (c : ascii) (s : string) : bool :=
  match s with
  | EmptyString => false
  | String d rest => Ascii.eqb d c || occurs c rest
  end.

(** ** Effects: a trace of the calls made on collaborators, and a result *)

Module PyM.
Section WithEffect.
Context {E : Type}.

Definition Py (A : Type) : Type := (list E * Result A)%type.

Definition ret {A} (a : A) : Py A := ([], Ok a).
Definition throw {A} (e : Exc) : Py A := ([], Raise e).
Definition emit (ev : E) : Py unit := ([ev], Ok tt).
Definition lift {A} (r : Result A) : Py A := ([], r).

Definition bind {A B} (m : Py A) (k : A -> Py B) : Py B :=
  match m with
  | (t, Ok a) => let (t', r) := k a in (t ++ t', r)
  | (t, Raise e) => (t, Raise e)
  end.

(** [assert cond] *)
Definition assert_ (cond : bool) : Py unit :=
  if cond then ret tt else throw (mkExc AssertionError []).

Definition trace {A} (m : Py A) : list E := fst m.
Definition outcome {A} (m : Py A) : Result A := snd m.
End WithEffect.
Arguments Py : clear implicits.

Module Notations.
Notation "x <- m ;; k" := (bind m (fun x => k))
  (at level 61, m at next level, right associativity).
Notation "m ;;; k" := (bind m (fun _ => k))
  (at level 61, right associativity).
End Notations.
End PyM.
Import PyM PyM.Notations.

(* ------------------------------------------------------------------ *)
(** ** spinoff/actor/node.py *)

Module NodePy.

(** The part of spinoff.actor.uri that node.py calls: [Uri.parse] and
    the [%r] rendering used in an error message. *)
Class UriApi := {
  Uri_parse : string -> Result Uri;
  Uri_repr : Uri -> string
}.

(** The Guardian contract consumed by the Node: [lookup_ref] returns a
    Ref or raises, [lookup_cell] returns a cell or [None]. *)
Record Guardian := mkGuardian {
  guardian_id : ObjId;
  lookup_ref : Uri -> Result Ref;
  lookup_cell : Uri -> option Cell
}.

Inductive Hub :=
| HubWithNoRemoting
| HubNew (nid : option NodeId) (enable_relay : bool).

Record Node := mkNode {
  self_id : ObjId;
  nid : option NodeId;
  _uri : Uri;
  guardian : option Guardian;
  _hub : option Hub
}.

Record _Msg := mk_Msg {
  ref : Ref;
  msg : PyVal
}.

Inductive Event :=
| DeadLetter (r : Ref) (message : PyVal)
| RemoteDeadLetter (r : Ref) (message : PyVal) (from_ : NodeId).

(** Calls that leave the module. *)
Inductive Effect :=
| RefTell (target : Ref) (message : PyVal)
| CellReceive (c : Cell) (message : PyVal)
| EventsLog (ev : Event)
| GuardianStop (g : ObjId)
| HubStop (h : Hub)
| HubSendMessage (h : Hub) (dest : option NodeId) (m : _Msg)
| HubWatchNode (h : Hub) (n : NodeId) (watcher : Ref)
| HubUnwatchNode (h : Hub) (n : NodeId) (watcher : Ref).

(** The wire decoder, [IncomingMessageUnpickler(node, stream).load()]:
    it yields the envelope [(local_path, message)] or raises. *)
Class Unpickler := {
  load : Node -> string -> Result (string * PyVal)
}.

(** The guardian constructor, [Guardian(uri=, node=)]. *)
Class GuardianFactory := {
  Guardian_new : Uri -> ObjId -> Guardian
}.

Definition none_has_no_attribute (attr : string) : Exc :=
  mkExc AttributeError
    [VStr ("'NoneType' object has no attribute '" ++ attr ++ "'")].

(** [(tag, ANY) == message], and [message == (tag, ANY)] alike: [ANY]
    equals every value from either side, so the test holds exactly when
    the message is a 2-tuple whose first item is the string [tag]. *)
Definition tagged (tag : string) (message : PyVal) : bool :=
  match message with
  | VTuple [VStr t; _] => String.eqb tag t
  | _ => false
  end.

(** [_, x = message] *)
Definition unpack_second (message : PyVal) : Result PyVal :=
  match message with
  | VTuple [_; x] => Ok x
  | VList [_; x] => Ok x
  | VTuple _ | VList _ =>
      Raise (mkExc (OtherExc "ValueError") [VStr "need exactly 2 values to unpack"])
  | _ => Raise (mkExc TypeError [VStr "object is not iterable"])
  end.

(** [target << message]: [Ref.__lshift__] tells the message; no other
    value of the model supports the operator with a tuple operand. *)
Definition lshift (target message : PyVal) : Py Effect unit :=
  match target with
  | VRef r => emit (RefTell r message)
  | _ => throw (mkExc TypeError [VStr "unsupported operand type(s) for <<"])
  end.

(** [self.nid + path] *)
Definition nid_plus (n : option NodeId) (p : string) : Result string :=
  match n with
  | Some s => Ok (s ++ p)%string
  | None =>
      Raise (mkExc TypeError
               [VStr "unsupported operand type(s) for +: 'NoneType' and 'str'"])
  end.

Section Methods.
Context {EH : ExcHierarchy} {UA : UriApi} {UP : Unpickler} {GF : GuardianFactory}.

(** The hub's [on_node_down] callback wired by [__init__]:
    [lambda ref, nid: ref << ('_node_down', nid)]. *)
Definition on_node_down (r : Ref) (n : NodeId) : Py Effect unit :=
  emit (RefTell r (VTuple [VStr "_node_down"; VStr n])).

(** [self] is the identity of the new object.  [Uri(name=None,
    parent=None, node=nid)] is the root Uri of the node: no path segment,
    and the given node id. *)
Definition __init__ (self : ObjId) (nid : option NodeId)
    (enable_remoting enable_relay : bool) : Node :=
  let _uri := mkUri nid "" true in
  {| self_id := self;
     nid := nid;
     _uri := _uri;
     guardian := Some (Guardian_new _uri self);
     _hub := Some (if negb enable_remoting then HubWithNoRemoting
                   else HubNew nid enable_relay) |}.

Definition lookup (self : Node) (uri : Uri) : Result Ref :=
  if negb (truthy (node uri)) || opt_str_eqb (node uri) (node (_uri self)) then
    try_except
      (match guardian self with
       | Some g => lookup_ref g uri
       | None => Raise (none_has_no_attribute "lookup_ref")
       end)
      (if truthy (node uri) then Some LookupFailed else None)
      (Ok (mkRef None uri true None))
  else if negb (root uri) then
    Raise (mkExc TypeError
      [VStr ("Node can't look up a relative Uri; did you mean Node.guardian.lookup("
             ++ Uri_repr uri ++ ")?")])
  else
    Ok (mkRef None uri false (Some (self_id self))).

Definition lookup_str (self : Node) (addr : string) : Result Ref :=
  match Uri_parse addr with
  | Ok u => lookup self u
  | Raise e => Raise e
  end.

Definition send_message (self : Node) (message : PyVal) (remote_ref : Ref)
    : Py Effect unit :=
  match _hub self with
  | Some h => emit (HubSendMessage h (node (uri remote_ref)) (mk_Msg remote_ref message))
  | None => throw (none_has_no_attribute "send_message")
  end.

Definition watch_node (self : Node) (n : NodeId) (watcher : Ref) : Py Effect unit :=
  match _hub self with
  | Some h => emit (HubWatchNode h n watcher)
  | None => throw (none_has_no_attribute "watch_node")
  end.

Definition unwatch_node (self : Node) (n : NodeId) (watcher : Ref) : Py Effect unit :=
  match _hub self with
  | Some h => emit (HubUnwatchNode h n watcher)
  | None => throw (none_has_no_attribute "unwatch_node")
  end.

Definition _remote_dead_letter (self : Node) (path : string) (msg : PyVal)
    (from_ : NodeId) : Py Effect unit :=
  s <- lift (nid_plus (nid self) path) ;;
  u <- lift (Uri_parse s) ;;
  let ref := mkRef None u true None in
  if negb (tagged "_unwatched" msg || tagged "_watched" msg) then
    emit (EventsLog (RemoteDeadLetter ref msg from_))
  else ret tt.

Definition _on_receive (self : Node) (sender_nid : NodeId) (msg_bytes : string)
    : Py Effect unit :=
  envelope <- lift (load self msg_bytes) ;;
  let '(local_path, message) := envelope in
  (* the callee [self.guardian.lookup_cell] is evaluated before its argument *)
  bound_lookup_cell <- lift (match guardian self with
                             | Some g => Ok (lookup_cell g)
                             | None => Raise (none_has_no_attribute "lookup_cell")
                             end) ;;
  u <- lift (Uri_parse local_path) ;;
  match bound_lookup_cell u with
  | None =>
      if tagged "_watched" message then
        s <- lift (nid_plus (nid self) local_path) ;;
        u' <- lift (Uri_parse s) ;;
        let watched_ref := mkRef None u' true None in
        watcher <- lift (unpack_second message) ;;
        lshift watcher (VTuple [VStr "terminated"; VRef watched_ref])
      else if tagged "terminated" message || tagged "_watched" message
              || tagged "_unwatched" message then
        ret tt
      else
        _remote_dead_letter self local_path message sender_nid
  | Some c => emit (CellReceive c message)
  end.

(** [stop] mutates [self]; the node after the call is returned next to
    the trace.  The collaborators' own [stop] methods are taken to
    return normally. *)
Definition stop (self : Node) : list Effect * Node :=
  let '(t1, self1) :=
    match guardian self with
    | Some g =>
        ([GuardianStop (guardian_id g)],
         {| self_id := self_id self; nid := nid self; _uri := _uri self;
            guardian := None; _hub := _hub self |})
    | None => ([], self)
    end in
  let '(t2, self2) :=
    match _hub self1 with
    | Some h =>
        ([HubStop h],
         {| self_id := self_id self1; nid := nid self1; _uri := _uri self1;
            guardian := guardian self1; _hub := None |})
    | None => ([], self1)
    end in
  (t1 ++ t2, self2).

Definition __getstate__ (self : Node) : Result PyVal :=
  Raise (mkExc PicklingError [VStr "Node cannot be serialized"]).

(** Generic object serialization of a Node, [cPickle.dumps(node)]: the
    pickler asks the instance for its state through [__getstate__],
    which the class defines, and encodes what it gets. *)
Definition pickle_dumps (encode : PyVal -> string) (self : Node) : Result string :=
  match __getstate__ self with
  | Ok state => Ok (encode state)
  | Raise e => Raise e
  end.

(** [_Msg.send_failed] *)
Definition send_failed (self : _Msg) : Py Effect unit :=
  if negb (tagged "_unwatched" (msg self) || tagged "_watched" (msg self)) then
    emit (EventsLog (DeadLetter (ref self) (msg self)))
  else ret tt.
End Methods.

(** [str(uri)], what the [%s] of [Node.__repr__] renders. *)
Class UriText := {
  Uri_str : Uri -> string
}.

Section Rendering.
Context {UT : UriText}.

(** [Node.__repr__]: a hub object is true, the cleared reference is not. *)
Definition __repr__ (self : Node) : string :=
  "<node:" ++ match _hub self with
              | Some _ => Uri_str (_uri self)
              | None => "local"
              end ++ ">".
End Rendering.

End NodePy.

(* ------------------------------------------------------------------ *)
(** ** unnamedframework/util/process.py *)

Module ProcessPy.

Definition ALLOWED_TERMINATION_SIGNALS : list string := ["KILL"; "TERM"; "INT"].

(** [value == s] for a string constant [s]. *)
Definition eq_str (value : PyVal) (s : string) : bool :=
  match value with
  | VStr t => String.eqb t s
  | _ => false
  end.

(** [value in constants] *)
Definition py_in (value : PyVal) (constants : list string) : bool :=
  existsb (eq_str value) constants.

(** [os.path.basename]: what follows the last slash. *)
Fixpoint basename_from (acc p : string) : string :=
  match p with
  | EmptyString => acc
  | String c rest =>
      if Ascii.eqb c "/" then basename_from "" rest
      else basename_from (acc ++ String c "") rest
  end.

Definition basename (p : string) : string := basename_from "" p.

(** The instance state set up by [GenericProcessProtocol.__init__]; the
    signal is the one captured by the canceller closure. *)
Record GenericProcessProtocol := mkProtocol {
  termination_signal : PyVal;
  _stdout_output : list string;
  _stderr_output : list string;
  _killed : bool
}.

(** [status.value], an exception instance of twisted.internet.error. *)
Inductive Reason :=
| ProcessDone
| ProcessTerminated (exitCode : option Z) (signal : option Z)
| OtherReason (cls : string).

Record Failure := mkFailure { value : Reason }.

Inductive Effect :=
| ReactorSpawnProcess (protocol : GenericProcessProtocol) (executable : string)
    (args : list string) (env : option (list (string * string)))
| TransportSignalProcess (signal_name : PyVal)
| DeferredErrback (e : Exc)
| DeferredCallback (result : list string).

(** [transport.signalProcess], which raises when the process is gone. *)
Class Transport := {
  signalProcess : PyVal -> Result unit
}.

Definition py_int (o : option Z) : PyVal :=
  match o with
  | Some z => VInt z
  | None => VNone
  end.

Definition __init__ (termination_signal : PyVal) : GenericProcessProtocol :=
  {| termination_signal := termination_signal;
     _stdout_output := [];
     _stderr_output := [];
     _killed := false |}.

Definition spawn_process (executable : string) (args : list string)
    (env : option (list (string * string))) (termination_signal : PyVal)
    : Py Effect GenericProcessProtocol :=
  assert_ (py_in termination_signal ALLOWED_TERMINATION_SIGNALS) ;;;
  let protocol := __init__ termination_signal in
  emit (ReactorSpawnProcess protocol executable (basename executable :: args) env) ;;;
  ret protocol.

Definition _kill {T : Transport} (self : GenericProcessProtocol) (signal_name : PyVal)
    : Py Effect GenericProcessProtocol :=
  emit (TransportSignalProcess signal_name) ;;;
  lift (signalProcess signal_name) ;;;
  ret {| termination_signal := termination_signal self;
         _stdout_output := _stdout_output self;
         _stderr_output := _stderr_output self;
         _killed := true |}.

Definition processEnded (self : GenericProcessProtocol) (status : Failure)
    : Py Effect unit :=
  if negb (_killed self) then
    match value status with
    | ProcessTerminated exitCode _ =>
        emit (DeferredErrback
                (mkExc ProcessFailed
                   [py_int exitCode; VList (map VStr (_stderr_output self))]))
    | _ => emit (DeferredCallback (_stdout_output self))
    end
  else ret tt.

Definition outReceived (self : GenericProcessProtocol) (data : string)
    : GenericProcessProtocol :=
  {| termination_signal := termination_signal self;
     _stdout_output := _stdout_output self ++ [data];
     _stderr_output := _stderr_output self;
     _killed := _killed self |}.

Definition errReceived (self : GenericProcessProtocol) (data : string)
    : GenericProcessProtocol :=
  {| termination_signal := termination_signal self;
     _stdout_output := _stdout_output self;
     _stderr_output := _stderr_output self ++ [data];
     _killed := _killed self |}.

(** What happens to a protocol between its creation and the end of the
    process: data arrives on either stream, or the Deferred is
    cancelled, which runs the canceller [_kill(termination_signal)]. *)
Inductive Call :=
| OutReceived (data : string)
| ErrReceived (data : string)
| Cancel.

Definition call {T : Transport} (self : GenericProcessProtocol) (c : Call)
    : GenericProcessProtocol :=
  match c with
  | OutReceived data => outReceived self data
  | ErrReceived data => errReceived self data
  | Cancel =>
      match outcome (_kill self (termination_signal self)) with
      | Ok self' => self'
      | Raise _ => self
      end
  end.

Definition calls {T : Transport} (self : GenericProcessProtocol) (cs : list Call)
    : GenericProcessProtocol :=
  fold_left call cs self.

(** The chunks a sequence of calls delivered on each stream, in order. *)
Fixpoint stdout_chunks (cs : list Call) : list string :=
  match cs with
  | [] => []
  | OutReceived data :: rest => data :: stdout_chunks rest
  | _ :: rest => stdout_chunks rest
  end.

Fixpoint stderr_chunks (cs : list Call) : list string :=
  match cs with
  | [] => []
  | ErrReceived data :: rest => data :: stderr_chunks rest
  | _ :: rest => stderr_chunks rest
  end.

(** Whether a sequence of calls contains a cancellation. *)
Definition has_cancel (cs : list Call) : bool :=
  existsb (fun c => match c with Cancel => true | _ => false end) cs.

(** Whether [transport.signalProcess(signal_name)] returns normally. *)
Definition signal_delivered {T : Transport} (signal_name : PyVal) : bool :=
  match signalProcess signal_name with
  | Ok _ => true
  | Raise _ => false
  end.

Definition is_ProcessTerminated (r : Reason) : bool :=
  match r with
  | ProcessTerminated _ _ => true
  | _ => false
  end.

Definition exitCode_of (r : Reason) : option Z :=
  match r with
  | ProcessTerminated exitCode _ => exitCode
  | ProcessDone => Some 0%Z
  | OtherReason _ => None
  end.

End ProcessPy.

(* ------------------------------------------------------------------ *)
(** ** twisted/plugins/runactor.py *)

Module RunactorPy.

Definition ModuleObj := ObjId.
Definition ClassObj := ObjId.
Definition ActorObj := ObjId.

(** What the interpreter answers to the three dynamic steps of
    [makeService]: [__import__(module_path, globals(), locals(),
    [name], -1)], [getattr(mod, name)] and the call [actor_cls()]. *)
Class Interpreter := {
  import_ : string -> list string -> Result ModuleObj;
  getattr : ModuleObj -> string -> Result ClassObj;
  instantiate : ClassObj -> Result ActorObj
}.

Inductive Effect :=
| PrintStderr (line : string)
| PrintTraceback
| Import (module_path : string) (fromlist : list string)
| Call (cls : ClassObj).

(** The service returned, [ActorRunner(actor)]. *)
Inductive Service :=
| ActorRunner (actor : ActorObj).

(** Cuts [s] at the last occurrence of [sep]; [None] when there is none. *)
Fixpoint rcut (sep : ascii) (s : string) : option (string * string) :=
  match s with
  | EmptyString => None
  | String c rest =>
      match rcut sep rest with
      | Some (a, b) => Some (String c a, b)
      | None => if Ascii.eqb c sep then Some ("", rest) else None
      end
  end.

(** [s.rsplit(sep, 1)] for a one-character separator. *)
Definition rsplit (s : string) (sep : ascii) : list string :=
  match rcut sep s with
  | Some (a, b) => [a; b]
  | None => [s]
  end.

(** [a, b = items] *)
Definition unpack_pair (items : list string) : Result (string * string) :=
  match items with
  | [a; b] => Ok (a, b)
  | [] | [_] =>
      Raise (mkExc (OtherExc "ValueError") [VStr "need more than 1 value to unpack"])
  | _ => Raise (mkExc (OtherExc "ValueError") [VStr "too many values to unpack"])
  end.

(** [sys.exit(status)] raises SystemExit. *)
Definition sys_exit (status : Z) : Exc :=
  mkExc (OtherExc "SystemExit") [VInt status].

(** [try: body  except cls: handler] with effects on both sides. *)
Definition try_py `{ExcHierarchy} {A} (body : Py Effect A) (cls : ExcClass)
    (handler : Py Effect A) : Py Effect A :=
  match body with
  | (t, Raise e) =>
      if exc_matches e (Some cls) then let (t', r) := handler in (t ++ t', r)
      else (t, Raise e)
  | done => done
  end.

Section MakeService.
Context {EH : ExcHierarchy} {I : Interpreter}.

(** [ActorRunnerMaker.makeService]; the argument is [options['actor']],
    [None] by default. *)
Definition makeService (actor_option : option string) : Py Effect Service :=
  if negb (truthy actor_option) then
    emit (PrintStderr "error: no actor specified") ;;;
    throw (sys_exit 1)
  else
    let actor := match actor_option with Some a => a | None => "" end in
    names <- try_py (lift (unpack_pair (rsplit actor ".")))
               (OtherExc "ValueError")
               (emit (PrintStderr ("error: bad path to actor " ++ actor)) ;;;
                throw (sys_exit 1)) ;;
    let '(module_path, actor_cls_name) := names in
    mod_ <- try_py (emit (Import module_path [actor_cls_name]) ;;;
                   lift (import_ module_path [actor_cls_name]))
             (OtherExc "ImportError")
             (emit (PrintStderr ("error: could not import " ++ actor ++ ":")) ;;;
              emit PrintTraceback ;;;
              throw (sys_exit 1)) ;;
    actor_cls <- lift (getattr mod_ actor_cls_name) ;;
    emit (Call actor_cls) ;;;
    a <- lift (instantiate actor_cls) ;;
    ret (ActorRunner a).
End MakeService.

End RunactorPy.

(* ------------------------------------------------------------------ *)
(** ** Collaborators for the examples *)

Module Fixtures.
Import NodePy.

(** The classes met in the examples: [zipimport.ZipImportError] is an
    ImportError, every other class derives from Exception directly. *)
#[export] Instance hierarchy : ExcHierarchy :=
  {| declared_ancestors := fun c =>
       match c with
       | OtherExc name =>
           if String.eqb name "ZipImportError" then
             [OtherExc "ImportError"; OtherExc "StandardError";
              OtherExc "Exception"; OtherExc "BaseException"]
           else [OtherExc "Exception"; OtherExc "BaseException"]
       | _ => [OtherExc "Exception"; OtherExc "BaseException"]
       end |}.

(** Cuts an address at its first slash: what precedes it, and the rest
    with the slash. *)
Fixpoint cut_at_slash (text : string) : string * string :=
  match text with
  | EmptyString => ("", "")
  | String c rest =>
      if Ascii.eqb c "/" then ("", text)
      else let (n, p) := cut_at_slash rest in (String c n, p)
  end.

(** Modelled from the spec: [Uri.parse] (spinoff/actor/uri.py is not
    among the sources), for the address grammar [[<node-id>]<path>] with
    a slash-delimited path; no node id means an unspecified node, and
    [root] is true when the path has no segment. *)
Definition parse (text : string) : Result Uri :=
  let (n, p) := cut_at_slash text in
  Ok (mkUri (if String.eqb n "" then None else Some n) p
            (String.eqb p "" || String.eqb p "/")).

Definition render (u : Uri) : string :=
  match node u with
  | Some n => n ++ path u
  | None => path u
  end.

#[export] Instance uri_api : UriApi :=
  {| Uri_parse := parse; Uri_repr := render |}.

(** A guardian with an empty actor tree. *)
Definition empty_guardian (id : ObjId) : Guardian :=
  {| guardian_id := id;
     lookup_ref := fun _ => Raise (mkExc LookupFailed []);
     lookup_cell := fun _ => None |}.

(** A guardian with one cell, at [/worker]. *)
Definition worker_guardian (id : ObjId) (c : Cell) : Guardian :=
  {| guardian_id := id;
     lookup_ref := fun u =>
       if String.eqb (path u) "/worker" then Ok (mkRef (Some c) u true None)
       else Raise (mkExc LookupFailed []);
     lookup_cell := fun u =>
       if String.eqb (path u) "/worker" then Some c else None |}.

#[export] Instance guardian_factory : GuardianFactory :=
  {| Guardian_new := fun _ self => empty_guardian (S self) |}.

(** A transport whose process takes every signal. *)
Definition live_transport : ProcessPy.Transport :=
  {| ProcessPy.signalProcess := fun _ => Ok tt |}.

Definition watcher_on_A : Ref :=
  mkRef None (mkUri (Some "A") "/watcher" false) false (Some 2).

(** A decoder that knows three envelopes. *)
#[export] Instance unpickler : Unpickler :=
  {| load := fun _ bytes =>
       if String.eqb bytes "watch-worker" then
         Ok ("/worker", VTuple [VStr "_watched"; VRef watcher_on_A])
       else if String.eqb bytes "unwatch-worker" then
         Ok ("/worker", VTuple [VStr "_unwatched"; VRef watcher_on_A])
       else if String.eqb bytes "ping-worker" then
         Ok ("/worker", VStr "ping")
       else Raise (mkExc (OtherExc "UnpicklingError") []) |}.

(** Node B of the two-node scenario, with remoting on. *)
Definition node_B : Node := __init__ 2 (Some "B") true false.

(** Node B with a live cell at [/worker]. *)
Definition node_B_with_worker : Node :=
  {| self_id := 2; nid := Some "B"; _uri := mkUri (Some "B") "" true;
     guardian := Some (worker_guardian 3 7);
     _hub := Some (HubNew (Some "B") false) |}.

(** A node built without an id. *)
Definition anonymous_node : Node := __init__ 4 None true false.

#[export] Instance uri_text : UriText := {| Uri_str := render |}.

(** A transport whose process is already gone. *)
Definition dead_transport : ProcessPy.Transport :=
  {| ProcessPy.signalProcess := fun _ =>
       Raise (mkExc (OtherExc "ProcessExitedAlready") []) |}.

(** An interpreter that knows one module, [app.actors], with one class,
    [Worker], and whose zip importer fails on [app.zipped]. *)
Definition one_module : RunactorPy.Interpreter :=
  {| RunactorPy.import_ := fun m _ =>
       if String.eqb m "app.actors" then Ok 10
       else if String.eqb m "app.zipped" then
         Raise (mkExc (OtherExc "ZipImportError") [VStr "bad local file header"])
       else Raise (mkExc (OtherExc "ImportError") [VStr ("No module named " ++ m)]);
     RunactorPy.getattr := fun _ name =>
       if String.eqb name "Worker" then Ok 11
       else Raise (mkExc AttributeError
                     [VStr ("'module' object has no attribute '" ++ name ++ "'")]);
     RunactorPy.instantiate := fun _ => Ok 12 |}.
End Fixtures.

(* ------------------------------------------------------------------ *)
(** ** Properties of spinoff/actor/node.py *)

Module NodeProps.
Import NodePy.

(** The node's own Uri carries the node's id: set up by [__init__],
    kept by [stop]. *)
Definition own_uri_ok (self : Node) : Prop := node (_uri self) = nid self.

(** The uri names another node than [self]: the test of [lookup]'s
    first branch fails. *)
Definition foreign (self : Node) (u : Uri) : bool :=
  truthy (node u) && negb (opt_str_eqb (node u) (node (_uri self))).

Definition dead_local_ref (u : Uri) : Ref := mkRef None u true None.

Definition remote_ref (self : Node) (u : Uri) : Ref :=
  mkRef None u false (Some (self_id self)).

(** The three protocol shapes [_on_receive] drops without a dead letter. *)
Definition bookkeeping (message : PyVal) : bool :=
  tagged "terminated" message || tagged "_watched" message
  || tagged "_unwatched" message.


Definition is_remote_dead_letter (ev : Effect) : bool :=
  match ev with
  | EventsLog (RemoteDeadLetter _ _ _) => true
  | _ => false
  end.

Definition remote_dead_letters (t : list Effect) : list Effect :=
  filter is_remote_dead_letter t.

Definition stopped (self : Node) : Node := snd (stop self).

(** The third sentence of the stop contract as the specification words
    it: after [stop], [lookup] fails. *)
Definition lookup_fails_after_stop `{ExcHierarchy} `{UriApi} (self : Node) (u : Uri) : Prop :=
  exists e, lookup (stopped self) u = Raise e.

(** The second half of the foreign-uri rule as the specification words
    it: the failure is of the class named InvalidUri. *)
Definition fails_with_InvalidUri `{ExcHierarchy} `{UriApi} (self : Node) (u : Uri) : Prop :=
  exists e, lookup self u = Raise e /\ exc_class e = OtherExc "InvalidUri".

(** What [_on_receive] does once the envelope is decoded and the guardian
    has no cell at the destination path. *)
Definition on_missing_cell `{UriApi} (self : Node) (sender_nid : NodeId)
    (local_path : string) (message : PyVal) : Py Effect unit :=
  if tagged "_watched" message then
    s <- lift (nid_plus (nid self) local_path) ;;
    u' <- lift (Uri_parse s) ;;
    watcher <- lift (unpack_second message) ;;
    lshift watcher (VTuple [VStr "terminated"; VRef (dead_local_ref u')])
  else if bookkeeping message then ret tt
  else _remote_dead_letter self local_path message sender_nid.

(** The calls a dispatch can end in: a tell, a delivery to a cell, or a
    remote dead letter. *)
Definition dispatch_effect (ev : Effect) : bool :=
  match ev with
  | RefTell _ _ | CellReceive _ _ => true
  | EventsLog (RemoteDeadLetter _ _ _) => true
  | _ => false
  end.

Section Lookup.
Context {EH : ExcHierarchy} {UA : UriApi} {GF : GuardianFactory}.

Lemma init_own_uri_ok (id : ObjId) (n : option NodeId) (remoting relay : bool) :
  own_uri_ok (__init__ id n remoting relay).
Proof. reflexivity. Qed.

Lemma stop_own_uri_ok (self : Node) :
  own_uri_ok self -> own_uri_ok (stopped self).
Proof.
  unfold own_uri_ok. destruct self as [i n u [g|] [h|]]; simpl; auto.
Qed.

Lemma foreign_false_iff (self : Node) (u : Uri) :
  foreign self u = false <->
  negb (truthy (node u)) || opt_str_eqb (node u) (node (_uri self)) = true.
Proof.
  unfold foreign.
  destruct (truthy (node u)), (opt_str_eqb (node u) (node (_uri self)));
    simpl; intuition congruence.
Qed.

(** Shape of [lookup] on the local branch. *)
Lemma lookup_local (self : Node) (u : Uri) :
  foreign self u = false ->
  lookup self u =
  try_except
    (match guardian self with
     | Some g => lookup_ref g u
     | None => Raise (none_has_no_attribute "lookup_ref")
     end)
    (if truthy (node u) then Some LookupFailed else None)
    (Ok (dead_local_ref u)).
Proof.
  intros Hf. apply foreign_false_iff in Hf.
  unfold lookup. rewrite Hf. reflexivity.
Qed.

(** Shape of [lookup] on the foreign branches. *)
Lemma lookup_foreign (self : Node) (u : Uri) :
  foreign self u = true ->
  lookup self u =
  if root u then Ok (remote_ref self u)
  else Raise (mkExc TypeError
    [VStr ("Node can't look up a relative Uri; did you mean Node.guardian.lookup("
           ++ Uri_repr u ++ ")?")]).
Proof.
  intros Hf. unfold lookup.
  destruct (negb (truthy (node u)) || opt_str_eqb (node u) (node (_uri self))) eqn:Hl.
  - apply foreign_false_iff in Hl. congruence.
  - destruct (root u); reflexivity.
Qed.
End Lookup.

Section LookupClaims.
Context {EH : ExcHierarchy} {UA : UriApi}.

(** C1: when the uri explicitly names this node (its node component is
    set and equals the node's own nid) and the guardian's [lookup_ref]
    fails with LookupFailed, [lookup] does not propagate the failure:
    it returns a dead local Ref, with no cell, [is_local] true and the
    requested uri. *)
Theorem lookup_own_node_missing_is_dead_ref
    (self : Node) (g : Guardian) (u : Uri) (e : Exc) :
  own_uri_ok self ->
  truthy (node u) = true ->
  node u = nid self ->
  guardian self = Some g ->
  lookup_ref g u = Raise e ->
  exc_class e = LookupFailed ->
  exists r, lookup self u = Ok r
            /\ cell r = None /\ is_local r = true /\ uri r = u.
Proof.
  intros Hown Hexplicit Hsame Hg Hfail Hcls.
  exists (dead_local_ref u). repeat split.
  rewrite lookup_local.
  - rewrite Hg, Hfail, Hexplicit. unfold try_except, exc_matches.
    rewrite Hcls. reflexivity.
  - apply foreign_false_iff. rewrite Hown, <- Hsame.
    destruct (node u) as [s|]; simpl;
      [rewrite String.eqb_refl|]; auto using orb_true_r.
Qed.

(** C2: when the uri's node component is empty and the guardian's
    [lookup_ref] fails with LookupFailed, [lookup] raises that very
    exception to its caller: the filter of the [except] clause is
    [None] there and catches nothing. *)
Theorem lookup_unspecified_node_surfaces_LookupFailed
    (self : Node) (g : Guardian) (u : Uri) (e : Exc) :
  truthy (node u) = false ->
  guardian self = Some g ->
  lookup_ref g u = Raise e ->
  exc_class e = LookupFailed ->
  lookup self u = Raise e.
Proof.
  intros Hempty Hg Hfail _.
  rewrite lookup_local.
  - rewrite Hg, Hfail, Hempty. reflexivity.
  - unfold foreign. rewrite Hempty. reflexivity.
Qed.

(** C3, amended: for a uri that names another node, [lookup] returns a
    remote Ref (not local, no cell, the requested uri) bound to this
    Node when the uri is rooted, and raises TypeError when it is not. *)
Theorem lookup_foreign_uri (self : Node) (u : Uri) :
  foreign self u = true ->
  match lookup self u with
  | Ok r => root u = true
            /\ is_local r = false /\ cell r = None /\ uri r = u
            /\ ref_node r = Some (self_id self)
  | Raise e => root u = false /\ exc_class e = TypeError
  end.
Proof.
  intros Hf. rewrite (lookup_foreign self u Hf).
  destruct (root u); simpl; repeat split.
Qed.
End LookupClaims.

Import Fixtures.

Lemma lookup_own_node_missing_is_dead_ref_witness :
  truthy (node (mkUri (Some "B") "/worker" true)) = true
  /\ node (mkUri (Some "B") "/worker" true) = nid node_B
  /\ exists r, lookup node_B (mkUri (Some "B") "/worker" true) = Ok r
               /\ cell r = None /\ is_local r = true
               /\ uri r = mkUri (Some "B") "/worker" true.
Proof.
  split; [reflexivity|]. split; [reflexivity|].
  apply (lookup_own_node_missing_is_dead_ref node_B (empty_guardian 3)
           (mkUri (Some "B") "/worker" true) (mkExc LookupFailed []));
    reflexivity.
Defined.

Lemma lookup_unspecified_node_surfaces_LookupFailed_witness :
  truthy (node (mkUri None "/worker" true)) = false
  /\ lookup node_B (mkUri None "/worker" true) = Raise (mkExc LookupFailed []).
Proof.
  split; [reflexivity|].
  apply (lookup_unspecified_node_surfaces_LookupFailed node_B (empty_guardian 3)
           (mkUri None "/worker" true) (mkExc LookupFailed []));
    reflexivity.
Defined.

Lemma lookup_foreign_uri_witness :
  foreign node_B (mkUri (Some "A") "/watcher" true) = true
  /\ match lookup node_B (mkUri (Some "A") "/watcher" true) with
     | Ok r => root (mkUri (Some "A") "/watcher" true) = true
               /\ is_local r = false /\ cell r = None
               /\ uri r = mkUri (Some "A") "/watcher" true
               /\ ref_node r = Some (self_id node_B)
     | Raise e => root (mkUri (Some "A") "/watcher" true) = false
                  /\ exc_class e = TypeError
     end.
Proof.
  split; [reflexivity|].
  apply (lookup_foreign_uri node_B (mkUri (Some "A") "/watcher" true)).
  reflexivity.
Defined.

(** C3 as the specification words it fails on a relative uri of another
    node: node B looking up [A] + [watcher] gets a TypeError, and no
    exception of a class named InvalidUri. *)
Lemma lookup_relative_foreign_is_not_InvalidUri :
  foreign node_B (mkUri (Some "A") "watcher" false) = true
  /\ root (mkUri (Some "A") "watcher" false) = false
  /\ ~ fails_with_InvalidUri node_B (mkUri (Some "A") "watcher" false).
Proof.
  split; [reflexivity|]. split; [reflexivity|].
  intros [e [Hraise Hcls]].
  vm_compute in Hraise. inversion Hraise; subst e. discriminate Hcls.
Qed.

(** *** Inbound dispatch and dead letters *)

Lemma bind_lift_Ok {E A B} (a : A) (k : A -> Py E B) :
  bind (lift (Ok a)) k = k a.
Proof. unfold bind, lift. destruct (k a); reflexivity. Qed.

Lemma bind_lift_Raise {E A B} (e : Exc) (k : A -> Py E B) :
  bind (lift (Raise e)) k = ([], Raise e).
Proof. reflexivity. Qed.

Create Rewrite HintDb py_bind.
#[local] Hint Rewrite @bind_lift_Ok @bind_lift_Raise : py_bind.

(** Runs the decoded prefix of a dispatch: rewrites with the outcomes at
    hand and lets the binds of finished calls go through. *)
Ltac run_calls := repeat (progress (autorewrite with py_bind; simpl nid_plus)).

Lemma tagged_inv (tag : string) (message : PyVal) :
  tagged tag message = true ->
  exists t x, message = VTuple [VStr t; x] /\ String.eqb tag t = true.
Proof.
  destruct message as [| | |items| |]; simpl; try discriminate.
  destruct items as [|[| |t| | |] [|x [|y rest]]]; try discriminate.
  intros H. exists t, x. split; [reflexivity | exact H].
Qed.

Section ReceiveClaims.
Context {UA : UriApi} {UP : Unpickler}.

Lemma on_receive_missing_cell
    (self : Node) (g : Guardian) (sender_nid : NodeId)
    (msg_bytes local_path : string) (message : PyVal) (u : Uri) :
  load self msg_bytes = Ok (local_path, message) ->
  Uri_parse local_path = Ok u ->
  guardian self = Some g ->
  lookup_cell g u = None ->
  _on_receive self sender_nid msg_bytes =
  on_missing_cell self sender_nid local_path message.
Proof.
  intros Hload Hparse Hg Hcell. unfold _on_receive.
  rewrite Hload. run_calls. rewrite Hg. run_calls.
  rewrite Hparse. run_calls. rewrite Hcell. reflexivity.
Qed.


(** A watch request for a missing cell never logs anything: it tells, or
    it stops on an exception before any call on a collaborator. *)
Lemma watched_missing_cell_logs_nothing
    (self : Node) (sender_nid : NodeId) (local_path : string) (message : PyVal) :
  tagged "_watched" message = true ->
  remote_dead_letters (trace (on_missing_cell self sender_nid local_path message)) = [].
Proof.
  intros Hw. unfold on_missing_cell. rewrite Hw.
  destruct (tagged_inv _ _ Hw) as [t [x [-> _]]].
  destruct (nid_plus (nid self) local_path) as [s|e];
    [rewrite bind_lift_Ok | reflexivity].
  destruct (Uri_parse s) as [u'|e]; [rewrite bind_lift_Ok | reflexivity].
  simpl unpack_second. rewrite bind_lift_Ok.
  destruct x; reflexivity.
Qed.



(** The exclusion of C5 needs nothing of the node's id or of the second
    parse: no bookkeeping message for a missing cell is ever logged. *)
Lemma bookkeeping_for_missing_cell_logs_nothing
    (self : Node) (g : Guardian) (sender_nid : NodeId)
    (msg_bytes local_path : string) (message : PyVal) (u : Uri) :
  load self msg_bytes = Ok (local_path, message) ->
  Uri_parse local_path = Ok u ->
  guardian self = Some g ->
  lookup_cell g u = None ->
  bookkeeping message = true ->
  remote_dead_letters (trace (_on_receive self sender_nid msg_bytes)) = [].
Proof.
  intros Hload Hparse Hg Hcell Hb.
  rewrite (on_receive_missing_cell self g sender_nid msg_bytes local_path message u
             Hload Hparse Hg Hcell).
  destruct (tagged "_watched" message) eqn:Hw.
  - apply watched_missing_cell_logs_nothing, Hw.
  - unfold on_missing_cell. rewrite Hw, Hb. reflexivity.
Qed.

(** A live cell receives the message, and nothing is logged. *)
Lemma live_cell_receives
    (self : Node) (g : Guardian) (sender_nid : NodeId)
    (msg_bytes local_path : string) (message : PyVal) (u : Uri) (c : Cell) :
  load self msg_bytes = Ok (local_path, message) ->
  Uri_parse local_path = Ok u ->
  guardian self = Some g ->
  lookup_cell g u = Some c ->
  _on_receive self sender_nid msg_bytes = ([CellReceive c message], Ok tt).
Proof.
  intros Hload Hparse Hg Hcell. unfold _on_receive.
  rewrite Hload, bind_lift_Ok, Hg, bind_lift_Ok, Hparse, bind_lift_Ok, Hcell.
  reflexivity.
Qed.

(** A send hands the hub one envelope, holding the destination Ref and
    the message as given: the object whose [send_failed] the hub calls
    when it cannot deliver. *)
Lemma send_message_hands_envelope
    (self : Node) (h : Hub) (message : PyVal) (r : Ref) :
  _hub self = Some h ->
  send_message self message r =
  ([HubSendMessage h (node (uri r)) (mk_Msg r message)], Ok tt).
Proof. intros Hh. unfold send_message. rewrite Hh. reflexivity. Qed.

(** C6: [send_failed] logs exactly one DeadLetter carrying the envelope's
    Ref and message, and nothing at all when the message is of shape
    [('_watched', _)] or [('_unwatched', _)]. *)
Theorem send_failed_dead_letter (m : _Msg) :
  send_failed m =
  if tagged "_watched" (msg m) || tagged "_unwatched" (msg m) then ([], Ok tt)
  else ([EventsLog (DeadLetter (ref m) (msg m))], Ok tt).
Proof.
  unfold send_failed.
  destruct (tagged "_watched" (msg m)), (tagged "_unwatched" (msg m)); reflexivity.
Qed.
End ReceiveClaims.





(** *** Stopping and serialization *)

Section StopClaims.
Context {EH : ExcHierarchy} {UA : UriApi}.

Lemma stop_trace (self : Node) :
  fst (stop self) =
  match guardian self with
  | Some g => [GuardianStop (guardian_id g)]
  | None => []
  end ++
  match _hub self with
  | Some h => [HubStop h]
  | None => []
  end.
Proof. destruct self as [i n u [g|] [h|]]; reflexivity. Qed.

Lemma stopped_cleared (self : Node) :
  guardian (stopped self) = None /\ _hub (stopped self) = None.
Proof.
  destruct self as [i n u [g|] [h|]]; split; reflexivity.
Qed.

Lemma stopped_keeps_identity (self : Node) :
  self_id (stopped self) = self_id self
  /\ nid (stopped self) = nid self
  /\ _uri (stopped self) = _uri self.
Proof.
  destruct self as [i n u [g|] [h|]]; repeat split.
Qed.

Lemma stop_cleared_is_noop (self : Node) :
  guardian self = None -> _hub self = None -> stop self = ([], self).
Proof. intros Hg Hh. unfold stop. rewrite Hg. simpl. rewrite Hh. reflexivity. Qed.

Lemma foreign_stopped (self : Node) (u : Uri) :
  foreign (stopped self) u = foreign self u.
Proof.
  unfold foreign. destruct (stopped_keeps_identity self) as [_ [_ ->]]. reflexivity.
Qed.

(** C7, amended: [stop] stops the guardian, then the hub, and clears both
    references; a second [stop] calls nothing, raises nothing and leaves
    the node as it is.  There is no "node stopped" error: on a stopped
    node [send_message] raises the AttributeError of the cleared hub
    reference, [lookup] of a uri with no node or with this node's own
    raises the AttributeError of the cleared guardian reference, and
    [lookup] of a uri that names another node answers as before the
    stop. *)
Theorem stop_contract (self : Node) (message : PyVal) (r : Ref) (u : Uri) :
  fst (stop self) =
    match guardian self with
    | Some g => [GuardianStop (guardian_id g)]
    | None => []
    end ++
    match _hub self with
    | Some h => [HubStop h]
    | None => []
    end
  /\ guardian (stopped self) = None
  /\ _hub (stopped self) = None
  /\ stop (stopped self) = ([], stopped self)
  /\ send_message (stopped self) message r =
       ([], Raise (none_has_no_attribute "send_message"))
  /\ lookup (stopped self) u =
       if foreign self u then lookup self u
       else Raise (none_has_no_attribute "lookup_ref").
Proof.
  destruct (stopped_cleared self) as [Hg Hh].
  split; [apply stop_trace|].
  split; [exact Hg|]. split; [exact Hh|].
  split; [apply stop_cleared_is_noop; assumption|].
  split.
  - unfold send_message. rewrite Hh. reflexivity.
  - destruct (foreign self u) eqn:Hf.
    + rewrite !lookup_foreign by (rewrite ?foreign_stopped; exact Hf).
      destruct (stopped_keeps_identity self) as [Hid _].
      unfold remote_ref. rewrite Hid. reflexivity.
    + rewrite lookup_local by (rewrite foreign_stopped; exact Hf).
      rewrite Hg. unfold try_except.
      destruct (truthy (node u)); reflexivity.
Qed.

(** C8: [__getstate__] raises PicklingError for every Node, so generic
    serialization of a Node fails with that error whatever the encoder,
    and never yields a serialized representation. *)
Theorem node_refuses_serialization (encode : PyVal -> string) (self : Node) :
  __getstate__ self = Raise (mkExc PicklingError [VStr "Node cannot be serialized"])
  /\ pickle_dumps encode self =
       Raise (mkExc PicklingError [VStr "Node cannot be serialized"])
  /\ forall bytes, pickle_dumps encode self <> Ok bytes.
Proof.
  repeat split. intros bytes H. discriminate H.
Qed.
End StopClaims.

(** C7 as the specification words it fails on node B of the two-node
    scenario: once stopped, B still looks up the rooted uri of a worker on
    A and returns a remote Ref, so not every lookup after [stop] fails;
    and [send_message] does dereference the cleared hub reference, its
    error being the AttributeError of [None]. *)
Lemma stopped_node_still_looks_up_foreign_uri :
  ~ lookup_fails_after_stop node_B (mkUri (Some "A") "/watcher" true)
  /\ lookup (stopped node_B) (mkUri (Some "A") "/watcher" true) =
       Ok (remote_ref node_B (mkUri (Some "A") "/watcher" true))
  /\ send_message (stopped node_B) (VStr "ping") watcher_on_A =
       ([], Raise (mkExc AttributeError
                     [VStr "'NoneType' object has no attribute 'send_message'"])).
Proof.
  split; [|split; reflexivity].
  intros [e He]. vm_compute in He. discriminate He.
Qed.
End NodeProps.

(* ------------------------------------------------------------------ *)
(** ** Properties of unnamedframework/util/process.py *)

Module ProcessProps.
Import ProcessPy.

Lemma py_in_allowed (signal_name : PyVal) :
  py_in signal_name ALLOWED_TERMINATION_SIGNALS = true <->
  signal_name = VStr "KILL" \/ signal_name = VStr "TERM" \/ signal_name = VStr "INT".
Proof.
  unfold py_in, ALLOWED_TERMINATION_SIGNALS. simpl. split.
  - destruct signal_name as [| |s| | |]; simpl; try discriminate.
    destruct (String.eqb_spec s "KILL") as [->|_]; [auto|].
    destruct (String.eqb_spec s "TERM") as [->|_]; [auto|].
    destruct (String.eqb_spec s "INT") as [->|_]; [auto|].
    discriminate.
  - intros [-> | [-> | ->]]; reflexivity.
Qed.

(** C9: [spawn_process] raises AssertionError, with no call to the
    reactor, unless the termination signal is one of KILL, TERM and INT;
    with one of these it spawns the process once, with the executable's
    base name ahead of the arguments, and returns the protocol. *)
Theorem spawn_process_checks_termination_signal
    (executable : string) (args : list string)
    (env : option (list (string * string))) (signal_name : PyVal) :
  (py_in signal_name ALLOWED_TERMINATION_SIGNALS = true <->
   signal_name = VStr "KILL" \/ signal_name = VStr "TERM" \/ signal_name = VStr "INT")
  /\ spawn_process executable args env signal_name =
     if py_in signal_name ALLOWED_TERMINATION_SIGNALS then
       ([ReactorSpawnProcess (__init__ signal_name) executable
           (basename executable :: args) env],
        Ok (__init__ signal_name))
     else ([], Raise (mkExc AssertionError [])).
Proof.
  split; [apply py_in_allowed|].
  unfold spawn_process.
  destruct (py_in signal_name ALLOWED_TERMINATION_SIGNALS); reflexivity.
Qed.

Section Protocol.
Context {T : Transport}.

Lemma call_outputs (self : GenericProcessProtocol) (c : Call) :
  _stdout_output (call self c) = _stdout_output self ++ stdout_chunks [c]
  /\ _stderr_output (call self c) = _stderr_output self ++ stderr_chunks [c]
  /\ termination_signal (call self c) = termination_signal self.
Proof.
  destruct c; simpl; rewrite ?app_nil_r; auto.
  unfold _kill, lift.
  destruct (signalProcess (termination_signal self)); simpl;
    rewrite ?app_nil_r; auto.
Qed.

Lemma call_killed (self : GenericProcessProtocol) (c : Call) :
  _killed (call self c) =
  _killed self || (has_cancel [c] && signal_delivered (termination_signal self)).
Proof.
  destruct c; simpl; rewrite ?orb_false_r; auto.
  unfold _kill, lift, signal_delivered.
  destruct (signalProcess (termination_signal self)); simpl;
    rewrite ?orb_false_r, ?orb_true_r; reflexivity.
Qed.

(** The two buffers hold the chunks received so far, in order of arrival. *)
Lemma calls_outputs (cs : list Call) (self : GenericProcessProtocol) :
  _stdout_output (calls self cs) = _stdout_output self ++ stdout_chunks cs
  /\ _stderr_output (calls self cs) = _stderr_output self ++ stderr_chunks cs
  /\ termination_signal (calls self cs) = termination_signal self.
Proof.
  revert self. induction cs as [|c cs IH]; intros self.
  - simpl. rewrite !app_nil_r. auto.
  - change (calls self (c :: cs)) with (calls (call self c) cs).
    destruct (IH (call self c)) as [Hout [Herr Hsig]].
    destruct (call_outputs self c) as [Hout1 [Herr1 Hsig1]].
    rewrite Hout, Herr, Hsig, Hout1, Herr1, Hsig1, <- !app_assoc.
    repeat split; f_equal; destruct c; reflexivity.
Qed.

(** The flag is set once a cancellation got its signal through. *)
Lemma calls_killed (cs : list Call) (self : GenericProcessProtocol) :
  _killed (calls self cs) =
  _killed self || (has_cancel cs && signal_delivered (termination_signal self)).
Proof.
  revert self. induction cs as [|c cs IH]; intros self.
  - simpl. rewrite orb_false_r. reflexivity.
  - change (calls self (c :: cs)) with (calls (call self c) cs).
    rewrite IH, call_killed.
    destruct (call_outputs self c) as [_ [_ ->]].
    destruct c; simpl;
      destruct (_killed self), (has_cancel cs),
               (signal_delivered (termination_signal self)); reflexivity.
Qed.

(** C10: at the end of the process, a protocol that was not killed fires
    the errback with ProcessFailed(exit code, stderr chunks) exactly when
    the status value is a ProcessTerminated, and otherwise fires the
    callback with the stdout chunks, each list holding the chunks received
    since creation in order; a killed protocol fires neither. *)
Theorem processEnded_fires
    (signal_name : PyVal) (cs : list Call) (status : Failure) :
  processEnded (calls (__init__ signal_name) cs) status =
  if _killed (calls (__init__ signal_name) cs) then ([], Ok tt)
  else if is_ProcessTerminated (value status) then
    ([DeferredErrback
        (mkExc ProcessFailed
           [py_int (exitCode_of (value status));
            VList (map VStr (stderr_chunks cs))])], Ok tt)
  else ([DeferredCallback (stdout_chunks cs)], Ok tt).
Proof.
  unfold processEnded.
  destruct (calls_outputs cs (__init__ signal_name)) as [Hout [Herr _]].
  simpl in Hout, Herr. rewrite Hout, Herr.
  destruct (_killed (calls (__init__ signal_name) cs)); simpl; [reflexivity|].
  destruct (value status); reflexivity.
Qed.

(** A protocol counts as killed exactly when its Deferred was cancelled
    and the transport delivered the termination signal. *)
Lemma killed_iff_cancelled (signal_name : PyVal) (cs : list Call) :
  _killed (calls (__init__ signal_name) cs) =
  has_cancel cs && signal_delivered signal_name.
Proof. rewrite calls_killed. reflexivity. Qed.
End Protocol.

Example spawn_process_default :
  spawn_process "/bin/ls" ["-l"] None (VStr "KILL") =
  ([ReactorSpawnProcess (__init__ (VStr "KILL")) "/bin/ls" ["ls"; "-l"] None],
   Ok (__init__ (VStr "KILL"))).
Proof. reflexivity. Qed.

Example spawn_process_rejects_HUP :
  spawn_process "/bin/ls" [] None (VStr "HUP") = ([], Raise (mkExc AssertionError [])).
Proof. reflexivity. Qed.

Example failed_process_reports_stderr :
  processEnded
    (calls (T := Fixtures.live_transport) (__init__ (VStr "KILL"))
       [OutReceived "a"; ErrReceived "oops"; OutReceived "b"])
    (mkFailure (ProcessTerminated (Some 2%Z) None)) =
  ([DeferredErrback (mkExc ProcessFailed [VInt 2; VList [VStr "oops"]])], Ok tt).
Proof. reflexivity. Qed.

Example cancelled_process_is_silent :
  processEnded
    (calls (T := Fixtures.live_transport) (__init__ (VStr "TERM"))
       [OutReceived "a"; Cancel])
    (mkFailure (ProcessTerminated None (Some 15%Z))) = ([], Ok tt).
Proof. reflexivity. Qed.
End ProcessProps.

(* ------------------------------------------------------------------ *)
(** ** Further properties of spinoff/actor/node.py *)

Module NodeExtras.
Import NodePy NodeProps.

Section Lookups.
Context {EH : ExcHierarchy} {UA : UriApi}.

(** For a uri with no node or with this node's own, [lookup] answers with
    the guardian's Ref as it is; of the guardian's failures only an
    instance of LookupFailed or of one of its subclasses, for a uri that
    names the node, is turned into a dead local Ref, every other one
    reaches the caller. *)
Theorem local_lookup_outcome (self : Node) (g : Guardian) (u : Uri) :
  foreign self u = false ->
  guardian self = Some g ->
  lookup self u =
  match lookup_ref g u with
  | Ok r => Ok r
  | Raise e =>
      if truthy (node u) && is_subclass (exc_class e) LookupFailed
      then Ok (dead_local_ref u)
      else Raise e
  end.
Proof.
  intros Hf Hg. rewrite (lookup_local self u Hf), Hg.
  destruct (lookup_ref g u) as [r|e]; [reflexivity|].
  unfold try_except, exc_matches.
  destruct (truthy (node u)); reflexivity.
Qed.

(** For a uri that names another node, [lookup] consults neither the
    guardian nor the hub: two nodes with the same identity and the same
    own Uri give the same answer, whatever their collaborators. *)
Theorem foreign_lookup_ignores_collaborators (self other : Node) (u : Uri) :
  foreign self u = true ->
  self_id other = self_id self ->
  _uri other = _uri self ->
  lookup other u = lookup self u.
Proof.
  intros Hf Hid Huri.
  assert (Hf' : foreign other u = true) by (unfold foreign; rewrite Huri; exact Hf).
  rewrite (lookup_foreign self u Hf), (lookup_foreign other u Hf').
  unfold remote_ref. rewrite Hid. reflexivity.
Qed.
End Lookups.

Section Dispatch.
Context {UA : UriApi} {UP : Unpickler}.

Lemma missing_cell_trace_small
    (self : Node) (sender_nid : NodeId) (local_path : string) (message : PyVal) :
  length (trace (on_missing_cell self sender_nid local_path message)) <= 1
  /\ forallb dispatch_effect
       (trace (on_missing_cell self sender_nid local_path message)) = true.
Proof.
  unfold on_missing_cell.
  destruct (tagged "_watched" message) eqn:Hw.
  - destruct (tagged_inv _ _ Hw) as [t [x [-> _]]].
    destruct (nid_plus (nid self) local_path) as [s|e];
      [rewrite bind_lift_Ok | simpl; auto].
    destruct (Uri_parse s) as [u'|e]; [rewrite bind_lift_Ok | simpl; auto].
    simpl unpack_second. rewrite bind_lift_Ok.
    destruct x; simpl; auto.
  - destruct (bookkeeping message); [simpl; auto|].
    unfold _remote_dead_letter.
    destruct (nid_plus (nid self) local_path) as [s|e];
      [rewrite bind_lift_Ok | simpl; auto].
    destruct (Uri_parse s) as [u'|e]; [rewrite bind_lift_Ok | simpl; auto].
    destruct (negb (tagged "_unwatched" message || tagged "_watched" message));
      simpl; auto.
Qed.

(** Once the bytes are decoded and the guardian is asked for the cell, a
    dispatch takes at most one action of its own, whatever the bytes: it
    tells a watcher, hands the message to a cell, or logs a remote dead
    letter.  Of its own it logs no local dead letter, stops nothing and
    makes no direct call on the hub; what a tell goes on to do is the
    Ref's business. *)
Theorem dispatch_makes_at_most_one_call
    (self : Node) (sender_nid : NodeId) (msg_bytes : string) :
  length (trace (_on_receive self sender_nid msg_bytes)) <= 1
  /\ forallb dispatch_effect (trace (_on_receive self sender_nid msg_bytes)) = true.
Proof.
  destruct (load self msg_bytes) as [[p m]|e] eqn:Hload.
  2: { unfold _on_receive. rewrite Hload. simpl. auto. }
  destruct (guardian self) as [g|] eqn:Hg.
  2: { unfold _on_receive. rewrite Hload, bind_lift_Ok, Hg. simpl. auto. }
  destruct (Uri_parse p) as [u|e] eqn:Hparse.
  2: { unfold _on_receive.
       rewrite Hload, bind_lift_Ok, Hg, bind_lift_Ok, Hparse. simpl. auto. }
  destruct (lookup_cell g u) as [c|] eqn:Hcell.
  - unfold _on_receive.
    rewrite Hload, bind_lift_Ok, Hg, bind_lift_Ok, Hparse, bind_lift_Ok, Hcell.
    simpl. auto.
  - rewrite (on_receive_missing_cell self g sender_nid msg_bytes p m u
               Hload Hparse Hg Hcell).
    apply missing_cell_trace_small.
Qed.

(** A dispatch stops at the first step that fails, in the order the
    source takes them, and has then done nothing: the decoder's exception
    first; on a cleared guardian reference the AttributeError of [None],
    whether or not the path would parse; then the exception of
    [Uri.parse]. *)
Theorem dispatch_stops_on_early_failure
    (self : Node) (sender_nid : NodeId) (msg_bytes : string) :
  match load self msg_bytes with
  | Raise e => _on_receive self sender_nid msg_bytes = ([], Raise e)
  | Ok (p, m) =>
      match guardian self with
      | None =>
          _on_receive self sender_nid msg_bytes =
          ([], Raise (none_has_no_attribute "lookup_cell"))
      | Some _ =>
          match Uri_parse p with
          | Raise e => _on_receive self sender_nid msg_bytes = ([], Raise e)
          | Ok _ => True
          end
      end
  end.
Proof.
  unfold _on_receive.
  destruct (load self msg_bytes) as [[p m]|e]; [|reflexivity].
  rewrite bind_lift_Ok.
  destruct (guardian self) as [g|]; [|reflexivity].
  rewrite bind_lift_Ok.
  destruct (Uri_parse p) as [u|e]; [exact I | reflexivity].
Qed.

Lemma missing_cell_dead_letter_inv
    (self : Node) (sender_nid f : NodeId) (p : string) (message m : PyVal) (r : Ref) :
  In (EventsLog (RemoteDeadLetter r m f))
     (trace (on_missing_cell self sender_nid p message)) ->
  m = message /\ f = sender_nid /\ bookkeeping message = false
  /\ cell r = None /\ is_local r = true
  /\ exists n, nid self = Some n /\ Uri_parse (n ++ p) = Ok (uri r).
Proof.
  unfold on_missing_cell.
  destruct (tagged "_watched" message) eqn:Hw.
  - destruct (tagged_inv _ _ Hw) as [t [x [-> _]]].
    destruct (nid_plus (nid self) p) as [s|e];
      [rewrite bind_lift_Ok | simpl; tauto].
    destruct (Uri_parse s) as [u'|e]; [rewrite bind_lift_Ok | simpl; tauto].
    simpl unpack_second. rewrite bind_lift_Ok.
    destruct x; simpl; intuition discriminate.
  - destruct (bookkeeping message) eqn:Hb; [simpl; tauto|].
    unfold _remote_dead_letter.
    destruct (nid self) as [n|] eqn:Hn; [simpl nid_plus | simpl; tauto].
    rewrite bind_lift_Ok.
    destruct (Uri_parse (n ++ p)) as [u'|e] eqn:Hp;
      [rewrite bind_lift_Ok | simpl; tauto].
    destruct (negb (tagged "_unwatched" message || tagged "_watched" message));
      simpl; [|tauto].
    intros [H|[]]. inversion H; subst.
    repeat split. exists n. split; [reflexivity | exact Hp].
Qed.

(** A remote dead letter in the trace of a dispatch tells the whole
    story: the bytes decoded to the logged message for a path where the
    guardian has no cell, the message is none of the three bookkeeping
    shapes, the sender is the one the hub named, and the Ref is the dead
    local Ref for that path on this node. *)
Theorem remote_dead_letter_means_undeliverable
    (self : Node) (sender_nid f : NodeId) (msg_bytes : string) (m : PyVal) (r : Ref) :
  In (EventsLog (RemoteDeadLetter r m f))
     (trace (_on_receive self sender_nid msg_bytes)) ->
  f = sender_nid /\ bookkeeping m = false
  /\ cell r = None /\ is_local r = true
  /\ exists p g u n,
       load self msg_bytes = Ok (p, m)
       /\ Uri_parse p = Ok u
       /\ guardian self = Some g
       /\ lookup_cell g u = None
       /\ nid self = Some n
       /\ Uri_parse (n ++ p) = Ok (uri r).
Proof.
  destruct (load self msg_bytes) as [[p m0]|e] eqn:Hload.
  2: { unfold _on_receive. rewrite Hload. simpl. tauto. }
  destruct (guardian self) as [g|] eqn:Hg.
  2: { unfold _on_receive. rewrite Hload, bind_lift_Ok, Hg. simpl. tauto. }
  destruct (Uri_parse p) as [u|e] eqn:Hparse.
  2: { unfold _on_receive.
       rewrite Hload, bind_lift_Ok, Hg, bind_lift_Ok, Hparse. simpl. tauto. }
  destruct (lookup_cell g u) as [c|] eqn:Hcell.
  - unfold _on_receive.
    rewrite Hload, bind_lift_Ok, Hg, bind_lift_Ok, Hparse, bind_lift_Ok, Hcell.
    simpl. intros [H|[]]. discriminate H.
  - rewrite (on_receive_missing_cell self g sender_nid msg_bytes p m0 u
               Hload Hparse Hg Hcell).
    intros Hin.
    destruct (missing_cell_dead_letter_inv _ _ _ _ _ _ _ Hin)
      as [-> [-> [Hb [Hc [Hl [n [Hn Hp]]]]]]].
    repeat split; auto.
    exists p, g, u, n. repeat split; auto.
Qed.

(** On a node built without an id, an envelope for a missing cell is
    dropped in silence when it is a [terminated] or [_unwatched] notice;
    a watch request and any ordinary message stop on the TypeError of
    [None + path], with no tell and no dead letter. *)
Theorem dispatch_on_node_without_id
    (self : Node) (g : Guardian) (sender_nid : NodeId)
    (msg_bytes local_path : string) (message : PyVal) (u : Uri) :
  load self msg_bytes = Ok (local_path, message) ->
  Uri_parse local_path = Ok u ->
  guardian self = Some g ->
  lookup_cell g u = None ->
  nid self = None ->
  _on_receive self sender_nid msg_bytes =
  if negb (tagged "_watched" message) && bookkeeping message then ([], Ok tt)
  else ([], Raise (mkExc TypeError
                     [VStr "unsupported operand type(s) for +: 'NoneType' and 'str'"])).
Proof.
  intros Hload Hparse Hg Hcell Hn.
  rewrite (on_receive_missing_cell self g sender_nid msg_bytes local_path message u
             Hload Hparse Hg Hcell).
  unfold on_missing_cell, _remote_dead_letter. rewrite Hn.
  destruct (tagged "_watched" message); simpl; [reflexivity|].
  destruct (bookkeeping message); reflexivity.
Qed.
End Dispatch.

Section Lifecycle.
Context {GF : GuardianFactory} {UT : UriText}.

(** [repr] tells a stopped node from a live one: after [stop] every node
    renders as [<node:local>], while a node fresh from the constructor
    renders its own root Uri. *)
Theorem repr_shows_stopped (self : Node) (id : ObjId) (n : option NodeId)
    (enable_remoting enable_relay : bool) :
  __repr__ (stopped self) = "<node:local>"
  /\ __repr__ (__init__ id n enable_remoting enable_relay) =
     ("<node:" ++ Uri_str (mkUri n "" true) ++ ">")%string.
Proof.
  split; [|reflexivity].
  unfold __repr__. destruct (stopped_cleared self) as [_ ->]. reflexivity.
Qed.

(** Watching and unwatching a node go through the hub alone: one hub call
    each while the node has its hub, and after [stop] both raise the
    AttributeError of the cleared reference without calling anything. *)
Theorem watch_requests_need_the_hub (self : Node) (n : NodeId) (watcher : Ref) :
  watch_node (stopped self) n watcher =
    ([], Raise (none_has_no_attribute "watch_node"))
  /\ unwatch_node (stopped self) n watcher =
     ([], Raise (none_has_no_attribute "unwatch_node"))
  /\ match _hub self with
     | Some h =>
         watch_node self n watcher = ([HubWatchNode h n watcher], Ok tt)
         /\ unwatch_node self n watcher = ([HubUnwatchNode h n watcher], Ok tt)
     | None => True
     end.
Proof.
  unfold watch_node, unwatch_node.
  destruct (stopped_cleared self) as [_ ->].
  destruct (_hub self); repeat split.
Qed.
End Lifecycle.

Import Fixtures.

Lemma local_lookup_outcome_witness :
  foreign node_B_with_worker (mkUri None "/worker" false) = false
  /\ lookup node_B_with_worker (mkUri None "/worker" false) =
     Ok (mkRef (Some 7) (mkUri None "/worker" false) true None).
Proof.
  split; [reflexivity|].
  apply (local_lookup_outcome node_B_with_worker (worker_guardian 3 7)
           (mkUri None "/worker" false));
    reflexivity.
Defined.

Lemma foreign_lookup_ignores_collaborators_witness :
  foreign node_B (mkUri (Some "A") "/watcher" true) = true
  /\ lookup node_B_with_worker (mkUri (Some "A") "/watcher" true) =
     lookup node_B (mkUri (Some "A") "/watcher" true).
Proof.
  split; [reflexivity|].
  apply (foreign_lookup_ignores_collaborators node_B node_B_with_worker
           (mkUri (Some "A") "/watcher" true));
    reflexivity.
Defined.

Lemma live_cell_receives_witness :
  lookup_cell (worker_guardian 3 7) (mkUri None "/worker" false) = Some 7
  /\ _on_receive node_B_with_worker "A" "ping-worker" =
     ([CellReceive 7 (VStr "ping")], Ok tt).
Proof.
  split; [reflexivity|].
  apply (live_cell_receives node_B_with_worker (worker_guardian 3 7) "A"
           "ping-worker" "/worker" (VStr "ping") (mkUri None "/worker" false) 7);
    reflexivity.
Defined.

Lemma remote_dead_letter_means_undeliverable_witness :
  In (EventsLog (RemoteDeadLetter
                   (dead_local_ref (mkUri (Some "B") "/worker" false))
                   (VStr "ping") "A"))
     (trace (_on_receive node_B "A" "ping-worker"))
  /\ bookkeeping (VStr "ping") = false.
Proof.
  assert (Hin : In (EventsLog (RemoteDeadLetter
                      (dead_local_ref (mkUri (Some "B") "/worker" false))
                      (VStr "ping") "A"))
                   (trace (_on_receive node_B "A" "ping-worker")))
    by (left; reflexivity).
  split; [exact Hin|].
  exact (proj1 (proj2 (remote_dead_letter_means_undeliverable
                         node_B "A" "A" "ping-worker" (VStr "ping")
                         (dead_local_ref (mkUri (Some "B") "/worker" false)) Hin))).
Defined.

Lemma dispatch_on_node_without_id_witness :
  nid anonymous_node = None
  /\ _on_receive anonymous_node "A" "watch-worker" =
     ([], Raise (mkExc TypeError
                   [VStr "unsupported operand type(s) for +: 'NoneType' and 'str'"]))
  /\ _on_receive anonymous_node "A" "unwatch-worker" = ([], Ok tt).
Proof.
  split; [reflexivity|]. split.
  - apply (dispatch_on_node_without_id anonymous_node (empty_guardian 5) "A"
             "watch-worker" "/worker"
             (VTuple [VStr "_watched"; VRef watcher_on_A])
             (mkUri None "/worker" false));
      reflexivity.
  - apply (dispatch_on_node_without_id anonymous_node (empty_guardian 5) "A"
             "unwatch-worker" "/worker"
             (VTuple [VStr "_unwatched"; VRef watcher_on_A])
             (mkUri None "/worker" false));
      reflexivity.
Defined.
End NodeExtras.

(* ------------------------------------------------------------------ *)
(** ** Strings *)

Module StringFacts.

Lemma append_assoc (a b c : string) : ((a ++ b) ++ c = a ++ (b ++ c))%string.
Proof. induction a as [|x a IH]; simpl; [reflexivity | now rewrite IH]. Qed.

Lemma append_nil_r (a : string) : (a ++ "")%string = a.
Proof. induction a as [|x a IH]; simpl; [reflexivity | now rewrite IH]. Qed.

Lemma occurs_append (c : ascii) (a b : string) :
  occurs c (a ++ b) = occurs c a || occurs c b.
Proof.
  induction a as [|x a IH]; simpl; [reflexivity|].
  rewrite IH. apply orb_assoc.
Qed.

End StringFacts.

(* ------------------------------------------------------------------ *)
(** ** Further properties of unnamedframework/util/process.py *)

Module ProcessExtras.
Import ProcessPy ProcessProps StringFacts.

Lemma basename_from_no_slash (p acc : string) :
  occurs "/" acc = false -> occurs "/" (basename_from acc p) = false.
Proof.
  revert acc. induction p as [|c p IH]; intros acc Hacc; simpl; [exact Hacc|].
  destruct (Ascii.eqb c "/") eqn:Hc.
  - apply IH. reflexivity.
  - apply IH. rewrite occurs_append, Hacc. simpl. rewrite Hc. reflexivity.
Qed.

Lemma basename_from_suffix (p acc : string) :
  exists dir,
    (acc ++ p)%string = (dir ++ basename_from acc p)%string
    /\ (dir = "" \/ exists d, dir = (d ++ "/")%string).
Proof.
  revert acc. induction p as [|c p IH]; intros acc; simpl.
  - exists "". split; [rewrite append_nil_r; reflexivity | left; reflexivity].
  - destruct (Ascii.eqb c "/") eqn:Hc.
    + apply Ascii.eqb_eq in Hc. subst c.
      destruct (IH "") as [dir [Heq Hdir]]. simpl in Heq.
      exists (acc ++ "/" ++ dir)%string. split.
      * rewrite Heq at 1. rewrite !append_assoc. reflexivity.
      * right. destruct Hdir as [-> | [d ->]].
        -- exists acc. reflexivity.
        -- exists (acc ++ "/" ++ d)%string. rewrite !append_assoc. reflexivity.
    + destruct (IH (acc ++ String c "")%string) as [dir [Heq Hdir]].
      exists dir. split; [|exact Hdir].
      rewrite <- Heq, append_assoc. reflexivity.
Qed.

Lemma basename_from_plain (name acc : string) :
  occurs "/" name = false -> basename_from acc name = (acc ++ name)%string.
Proof.
  revert acc. induction name as [|c name IH]; intros acc Hn; simpl.
  - rewrite append_nil_r. reflexivity.
  - simpl in Hn. apply orb_false_iff in Hn as [Hc Hn]. rewrite Hc.
    rewrite (IH _ Hn), append_assoc. reflexivity.
Qed.

Lemma basename_from_after_slash (dir name acc : string) :
  occurs "/" name = false ->
  basename_from acc (dir ++ "/" ++ name) = name.
Proof.
  intros Hn. revert acc. induction dir as [|c dir IH]; intros acc; simpl.
  - apply (basename_from_plain name "" Hn).
  - destruct (Ascii.eqb c "/"); apply IH.
Qed.

(** With an allowed signal, the reactor is asked once to run the
    executable, and the argument vector it gets is the caller's arguments
    behind a program name that has no slash and is the end of the
    executable's path, cut right after its last slash. *)
Theorem spawn_process_argv
    (executable : string) (args : list string)
    (env : option (list (string * string))) (signal_name : PyVal) :
  py_in signal_name ALLOWED_TERMINATION_SIGNALS = true ->
  exists argv0 dir,
    trace (spawn_process executable args env signal_name) =
      [ReactorSpawnProcess (__init__ signal_name) executable (argv0 :: args) env]
    /\ occurs "/" argv0 = false
    /\ executable = (dir ++ argv0)%string
    /\ (dir = "" \/ exists d, dir = (d ++ "/")%string).
Proof.
  intros Hsig.
  destruct (basename_from_suffix executable "") as [dir [Heq Hdir]].
  exists (basename executable), dir. repeat split.
  - unfold spawn_process. rewrite Hsig. reflexivity.
  - apply basename_from_no_slash. reflexivity.
  - exact Heq.
  - exact Hdir.
Qed.

(** The program name of a path is what follows its last slash: a name
    without a slash is its own program name, and stays so behind any
    directory. *)
Theorem basename_of_path (dir name : string) :
  occurs "/" name = false ->
  basename name = name /\ basename (dir ++ "/" ++ name) = name.
Proof.
  intros Hn. split.
  - apply (basename_from_plain name "" Hn).
  - apply basename_from_after_slash, Hn.
Qed.

Section Cancelling.
Context {T : Transport}.

(** Cancelling a protocol, however much data it has received, signals the
    process with the termination signal the protocol was created with; the
    attempt is made even when the transport refuses it, and then the
    refusal is raised and the protocol is left as it was. *)
Theorem cancel_sends_termination_signal (signal_name : PyVal) (cs : list Call) :
  _kill (calls (__init__ signal_name) cs)
        (termination_signal (calls (__init__ signal_name) cs)) =
  ([TransportSignalProcess signal_name],
   match signalProcess signal_name with
   | Ok _ =>
       Ok {| termination_signal := signal_name;
             _stdout_output := stdout_chunks cs;
             _stderr_output := stderr_chunks cs;
             _killed := true |}
   | Raise e => Raise e
   end).
Proof.
  destruct (calls_outputs cs (__init__ signal_name)) as [Hout [Herr Hsig]].
  simpl in Hout, Herr, Hsig.
  unfold _kill. rewrite Hsig, Hout, Herr.
  destruct (signalProcess signal_name); reflexivity.
Qed.

(** At the end of the process exactly one of callback and errback fires,
    unless the Deferred was cancelled and the signal went through, in
    which case nothing fires: a cancellation the transport refused does
    not silence the result. *)
Theorem processEnded_fires_once_unless_cancelled
    (signal_name : PyVal) (cs : list Call) (status : Failure) :
  length (trace (processEnded (calls (__init__ signal_name) cs) status)) =
  if has_cancel cs && signal_delivered signal_name then 0 else 1.
Proof.
  unfold processEnded. rewrite calls_killed. simpl.
  destruct (has_cancel cs && signal_delivered signal_name); simpl; [reflexivity|].
  destruct (value status); reflexivity.
Qed.
End Cancelling.

Lemma spawn_process_argv_witness :
  py_in (VStr "TERM") ALLOWED_TERMINATION_SIGNALS = true
  /\ exists argv0 dir,
       trace (spawn_process "/usr/bin/env" ["python"] None (VStr "TERM")) =
         [ReactorSpawnProcess (__init__ (VStr "TERM")) "/usr/bin/env"
            (argv0 :: ["python"]) None]
       /\ occurs "/" argv0 = false
       /\ "/usr/bin/env" = (dir ++ argv0)%string
       /\ (dir = "" \/ exists d, dir = (d ++ "/")%string).
Proof.
  split; [reflexivity|].
  apply (spawn_process_argv "/usr/bin/env" ["python"] None (VStr "TERM")).
  reflexivity.
Defined.

Lemma basename_of_path_witness :
  occurs "/" "env" = false
  /\ basename "env" = "env" /\ basename ("/usr/bin" ++ "/" ++ "env") = "env".
Proof.
  split; [reflexivity|].
  apply (basename_of_path "/usr/bin" "env"). reflexivity.
Defined.
End ProcessExtras.

(* ------------------------------------------------------------------ *)
(** ** Properties of twisted/plugins/runactor.py *)

Module RunactorProps.
Import RunactorPy StringFacts.

Lemma rcut_none (sep : ascii) (s : string) :
  rcut sep s = None <-> occurs sep s = false.
Proof.
  induction s as [|c s IH]; simpl; [tauto|].
  destruct (rcut sep s) as [[a b]|].
  - split; [discriminate|].
    intros H. apply orb_false_iff in H as [_ H]. apply IH in H. discriminate H.
  - destruct (Ascii.eqb c sep); simpl.
    + split; discriminate.
    + split; intros _; [apply IH|]; reflexivity.
Qed.

Lemma rcut_some (sep : ascii) (s a b : string) :
  rcut sep s = Some (a, b) ->
  s = (a ++ String sep b)%string /\ occurs sep b = false.
Proof.
  revert a b. induction s as [|c s IH]; intros a b; simpl; [discriminate|].
  destruct (rcut sep s) as [[a' b']|] eqn:Hcut.
  - intros H. inversion H; subst. destruct (IH a' b eq_refl) as [-> Hb].
    split; [reflexivity | exact Hb].
  - destruct (Ascii.eqb c sep) eqn:Hc; [|discriminate].
    intros H. inversion H; subst. apply Ascii.eqb_eq in Hc. subst c.
    split; [reflexivity | apply rcut_none, Hcut].
Qed.

Lemma rcut_last (sep : ascii) (a b : string) :
  occurs sep b = false -> rcut sep (a ++ String sep b) = Some (a, b).
Proof.
  intros Hb. induction a as [|c a IH]; simpl.
  - apply rcut_none in Hb. rewrite Hb, Ascii.eqb_refl. reflexivity.
  - rewrite IH. reflexivity.
Qed.

Lemma dotted_is_true (a b : string) :
  truthy (Some (a ++ String "." b)%string) = true.
Proof. destruct a; reflexivity. Qed.

Section Service.
Context {EH : ExcHierarchy} {IP : Interpreter}.

(** What [makeService] does once the actor path is cut into a module
    path and a class name. *)
Lemma makeService_dotted (module_path name : string) :
  occurs "." name = false ->
  makeService (Some (module_path ++ String "." name)%string) =
  match import_ module_path [name] with
  | Raise e =>
      if is_subclass (exc_class e) (OtherExc "ImportError") then
        ([Import module_path [name];
          PrintStderr ("error: could not import "
                       ++ (module_path ++ String "." name) ++ ":");
          PrintTraceback],
         Raise (sys_exit 1))
      else ([Import module_path [name]], Raise e)
  | Ok mod_ =>
      match getattr mod_ name with
      | Raise e => ([Import module_path [name]], Raise e)
      | Ok cls =>
          match instantiate cls with
          | Raise e => ([Import module_path [name]; Call cls], Raise e)
          | Ok a => ([Import module_path [name]; Call cls], Ok (ActorRunner a))
          end
      end
  end.
Proof.
  intros Hname. unfold makeService.
  rewrite dotted_is_true. simpl negb. cbv iota.
  unfold rsplit. rewrite (rcut_last "." module_path name Hname).
  cbv beta iota zeta delta
    [bind lift try_py emit throw ret exc_matches unpack_pair app].
  destruct (import_ module_path [name]) as [mod_|e].
  - destruct (getattr mod_ name) as [cls|e]; [|reflexivity].
    destruct (instantiate cls) as [a|e]; reflexivity.
  - destruct (is_subclass (exc_class e) (OtherExc "ImportError")); reflexivity.
Qed.

Lemma makeService_undotted (actor : string) :
  actor <> "" ->
  occurs "." actor = false ->
  makeService (Some actor) =
  ([PrintStderr ("error: bad path to actor " ++ actor)], Raise (sys_exit 1)).
Proof.
  intros Hne Hdot. unfold makeService.
  assert (Ht : truthy (Some actor) = true).
  { simpl. destruct (String.eqb_spec actor ""); [contradiction | reflexivity]. }
  rewrite Ht. simpl negb. cbv iota.
  unfold rsplit. apply rcut_none in Hdot. rewrite Hdot. reflexivity.
Qed.

(** Without an actor option, or with an empty one, [makeService] prints
    one error line and exits with status 1; with an actor path that has
    no dot it does the same with another line.  Neither way is anything
    imported. *)
Theorem makeService_rejects_bad_option (actor_option : option string) :
  match actor_option with
  | Some actor =>
      if String.eqb actor "" then
        makeService actor_option =
        ([PrintStderr "error: no actor specified"], Raise (sys_exit 1))
      else if occurs "." actor then True
      else
        makeService actor_option =
        ([PrintStderr ("error: bad path to actor " ++ actor)], Raise (sys_exit 1))
  | None =>
      makeService actor_option =
      ([PrintStderr "error: no actor specified"], Raise (sys_exit 1))
  end.
Proof.
  destruct actor_option as [actor|]; [|reflexivity].
  destruct (String.eqb_spec actor "") as [->|Hne]; [reflexivity|].
  destruct (occurs "." actor) eqn:Hdot; [exact I|].
  apply makeService_undotted; assumption.
Qed.

(** Whatever is imported is named by the option: the module path and the
    single name asked from it join with a dot into the actor path, and
    the name has no dot of its own, so the path was cut at its last
    dot. *)
Theorem import_names_recombine
    (actor_option : option string) (module_path : string) (fromlist : list string) :
  In (Import module_path fromlist) (trace (makeService actor_option)) ->
  exists name,
    fromlist = [name]
    /\ actor_option = Some (module_path ++ String "." name)%string
    /\ occurs "." name = false.
Proof.
  destruct actor_option as [actor|]; [|simpl; intuition discriminate].
  destruct (String.eqb_spec actor "") as [->|Hne]; [simpl; intuition discriminate|].
  destruct (rcut "." actor) as [[m c]|] eqn:Hcut.
  - destruct (rcut_some _ _ _ _ Hcut) as [-> Hc].
    rewrite (makeService_dotted m c Hc).
    assert (Hkey : forall t r,
               (forall ev, In ev t -> ev = Import m [c] \/
                                      (forall a b, ev <> Import a b)) ->
               In (Import module_path fromlist)
                  (trace (E := Effect) (A := Service) (t, r)) ->
               module_path = m /\ fromlist = [c]).
    { intros t r Hall Hin. destruct (Hall _ Hin) as [H|H].
      - inversion H. auto.
      - exfalso. apply (H module_path fromlist). reflexivity. }
    intros Hin.
    assert (Hgoal : module_path = m /\ fromlist = [c]).
    { revert Hin. destruct (import_ m [c]) as [mod_|e].
      - destruct (getattr mod_ c) as [cls|e].
        + destruct (instantiate cls) as [a|e]; intros Hin;
            apply Hkey in Hin; auto;
            intros ev [<-|[<-|[]]]; auto; right; discriminate.
        + intros Hin. apply Hkey in Hin; auto.
          intros ev [<-|[]]; auto.
      - destruct (is_subclass (exc_class e) (OtherExc "ImportError"));
          intros Hin; apply Hkey in Hin; auto.
        + intros ev [<-|[<-|[<-|[]]]]; auto; right; discriminate.
        + intros ev [<-|[]]; auto. }
    destruct Hgoal as [-> ->].
    exists c. auto.
  - apply rcut_none in Hcut.
    rewrite (makeService_undotted actor Hne Hcut). simpl. intuition discriminate.
Qed.

(** A failed import ends in an exit exactly when its exception is an
    instance of ImportError or of one of its subclasses: then one error
    line and the traceback are printed and SystemExit(1) is raised; an
    exception of any other class reaches the caller as it is, with
    nothing printed. *)
Theorem only_ImportError_becomes_exit (module_path name : string) (e : Exc) :
  occurs "." name = false ->
  import_ module_path [name] = Raise e ->
  makeService (Some (module_path ++ String "." name)%string) =
  if is_subclass (exc_class e) (OtherExc "ImportError") then
    ([Import module_path [name];
      PrintStderr ("error: could not import "
                   ++ (module_path ++ String "." name) ++ ":");
      PrintTraceback],
     Raise (sys_exit 1))
  else ([Import module_path [name]], Raise e).
Proof.
  intros Hname Himp. rewrite (makeService_dotted module_path name Hname), Himp.
  reflexivity.
Qed.

(** After a successful import the class is fetched from the module and
    called once, and its instance comes back wrapped in an ActorRunner; a
    module without the class, or a constructor that raises, makes
    [makeService] raise that exception itself: no error line, no exit
    status. *)
Theorem imported_class_is_run (module_path name : string) (mod_ : ModuleObj) :
  occurs "." name = false ->
  import_ module_path [name] = Ok mod_ ->
  makeService (Some (module_path ++ String "." name)%string) =
  match getattr mod_ name with
  | Raise e => ([Import module_path [name]], Raise e)
  | Ok cls =>
      match instantiate cls with
      | Raise e => ([Import module_path [name]; Call cls], Raise e)
      | Ok a => ([Import module_path [name]; Call cls], Ok (ActorRunner a))
      end
  end.
Proof.
  intros Hname Himp. rewrite (makeService_dotted module_path name Hname), Himp.
  reflexivity.
Qed.
End Service.

Import Fixtures.
#[local] Existing Instance one_module.

Lemma import_names_recombine_witness :
  In (Import "app.actors" ["Worker"])
     (trace (makeService (Some "app.actors.Worker")))
  /\ exists name,
       ["Worker"] = [name]
       /\ Some "app.actors.Worker" = Some ("app.actors" ++ String "." name)%string
       /\ occurs "." name = false.
Proof.
  assert (Hin : In (Import "app.actors" ["Worker"])
                   (trace (makeService (Some "app.actors.Worker"))))
    by (left; reflexivity).
  split; [exact Hin|].
  exact (import_names_recombine
           (Some "app.actors.Worker") "app.actors" ["Worker"] Hin).
Defined.

Lemma only_ImportError_becomes_exit_witness :
  occurs "." "Worker" = false
  /\ import_ "app.zipped" ["Worker"] =
     Raise (mkExc (OtherExc "ZipImportError") [VStr "bad local file header"])
  /\ makeService (Some "app.zipped.Worker") =
     ([Import "app.zipped" ["Worker"];
       PrintStderr "error: could not import app.zipped.Worker:";
       PrintTraceback],
      Raise (sys_exit 1)).
Proof.
  split; [reflexivity|]. split; [reflexivity|].
  exact (only_ImportError_becomes_exit "app.zipped" "Worker"
           (mkExc (OtherExc "ZipImportError") [VStr "bad local file header"])
           eq_refl eq_refl).
Defined.

Lemma imported_class_is_run_witness :
  occurs "." "Worker" = false
  /\ makeService (Some "app.actors.Worker") =
     ([Import "app.actors" ["Worker"]; Call 11], Ok (ActorRunner 12)).
Proof.
  split; [reflexivity|].
  exact (imported_class_is_run "app.actors" "Worker" 10 eq_refl eq_refl).
Defined.
End RunactorProps.
